(* ===== verification/_CoqProject ===== *)
-Q . S2P
Prelude.v
Frame.v
Counts.v
Streamlit.v
Loader.v
Pages.v
App.v
