(* ===== verification/Prelude.v ===== *)
(** * A verification development of the cp_1data dashboard (src/dashboard.py)

    ** The program

    [src/dashboard.py] is one Streamlit script of 150 lines.  A run of it
    executes the whole script top to bottom:
    - line 9: [st.set_page_config(...)];
    - lines 16-27: [df_original = load_data()], where [load_data] reads the
      CSV file [Electric_Vehicle_Population_Data 2.csv] with
      [pd.read_csv], catches [FileNotFoundError] (an [st.error] message
      and [pd.DataFrame()] instead) and is wrapped in [@st.cache_data],
      which keeps the first returned value for the life of the server
      process and replays it, with the elements the call drew, afterwards;
    - lines 30-44: the sidebar, whose [st.radio] yields the selected
      section name;
    - lines 47-140: four page functions, three of static text and
      [pagina_analise_dados], which stops on an empty frame and otherwise
      draws the frame's head and shape, the top-10 [Make] counts
      ([value_counts().head(10)]), and, each under a column guard, the
      per-year counts ([groupby("Model Year").size()]), the type counts and
      the state counts ([value_counts()]);
    - lines 143-150: the [if/elif] chain that calls the selected page.

    ** The files

    - [Prelude.v] (this file): the render monad [RW W E A] (the elements a
      run draws, and the exception or the value it ends with) with its
      laws, notations in [render_scope], the [raises_only] predicate with
      its hint database [dash] and tactic [raises_only_solve], and the
      shared lemmas on counts ([occ], [sum_counts]), folds, sorted lists
      and the first-seen order [first_seen].
    - [Frame.v]: pandas's [DataFrame] as the script uses it: cells
      ([CInt], [CStr], [CNaN]), [Frame.empty] ([df.empty]),
      [Frame.has_column] ([c in df.columns]), [Frame.get_column]
      ([df[c]], [None] for [KeyError]), [Frame.head], [Frame.shape],
      [Frame.reset_index] (a Series of counts as a two-column frame) and
      [Frame.set_columns] ([df.columns = ...], [None] for the
      length-mismatch [ValueError]).
    - [Counts.v]: [value_counts] and [groupby_size].  [Tally.tally] is
      pandas's hash-table pass (keys in first-seen order, missing values
      dropped); [value_counts] orders it through the interface
      [CountSort] (a sort by decreasing count, any permutation allowed),
      which the stable instance [stable_count_sort] implements;
      [groupby_size] orders it by key ([KeySort], numbers before strings).
    - [Streamlit.v]: the elements [st.*] calls draw ([elem]), the Plotly
      figures ([figure]), the exceptions ([exn]), [within] for the
      [with st.sidebar:] / [with colN:] blocks, and in [Px] how
      [px.line], [px.pie] and [px.choropleth] read their arguments
      (column names looked up in the frame, [ValueError] otherwise).
    - [Loader.v]: [Loader.read_csv], [Loader.load_data],
      [Loader.cache_data] and [Loader.df_original] (line 27), and in
      [Session] the runs of one server process, the reachable cache
      states and [memo_spec], the stateless specification of a memoised
      call.
    - [Pages.v]: [Pages.sidebar], the three static pages,
      [Pages.pagina_analise_dados] with its sections [secao_ano],
      [secao_tipos], [secao_estados] (each building its frame and figure
      as lines 114-140 do), [Pages.assign_columns] and [Pages.dispatch].
    - [App.v]: [App.app_run], one run of the script, threading the cache.

    ** The theorems

    - Counting (Counts.v, C1-C5, C17, C23): [value_counts] lists each
      non-missing value once with its exact count, counts non-increasing;
      [head(n)] keeps exactly [min n d] of the [d] distinct values, with
      their exact counts, and no value left out outnumbers one kept;
      [groupby_size] is strictly increasing by key with exact counts; with
      a stable sort, ties keep first-seen order (the spec's tie rule); the
      counts add up to the non-missing cells; reordering the rows
      reorders [value_counts] and leaves [groupby_size] unchanged
      ([Proper] instances [value_counts_proper] and [groupby_size_proper],
      the latter through the transitivity of the key order and the
      uniqueness of strictly sorted lists, used by setoid rewriting); the
      hash-table pass equals its reference definition (C23).  All but the
      tie rule hold for every [CountSort] instance.
    - Loading (Loader.v, C6-C10, C21, C22): [load_data] on each file
      state; once a load returned, every later run of the process gets the
      same outcome whatever the file becomes; other read failures are not
      cached; a missing file gives exactly one error message per run; the
      reachable cache states are exactly nothing, the fallback frame with
      its notice, or a frame read with nothing drawn (rule induction on
      [reachable]), and after a history of file states the cache holds
      the outcome of the first run at which the file could be opened
      ([Session.stored_spec], C10); the cache-threaded runs refine
      [memo_spec] (C21); from the first loadable file on, no run fails
      again (C22, liveness).
    - Pages (Pages.v, C11-C14, C19, C20): the analysis page on an empty
      frame, on a frame without [Make] ([KeyError], no chart at all) and
      with [Make] (exactly the views whose columns exist), and its
      structure section (first five rows and shape); the radio and the
      [if/elif] chain agree on the four section names; the frames handed
      to Plotly are well formed and the renaming of line 133 cannot fail
      (C20).
    - Runs (App.v, C15, C16, C18, C24): every run configures the page
      first and can only raise a non-missing read failure or the
      [KeyError] of [Make] (no [ValueError] of pandas or Plotly); a run on
      the missing-file fallback completes with one notice and no chart; a
      second run with the same selection draws the same page; the
      [KeyError] of a frame without [Make] repeats in later runs even
      after the file is fixed.

    ** Choices and limits

    - No fuel: the script has no loop of its own, and every function of
      the model, the library routines included, is structural ([foldl],
      [foldr], list recursion); termination is therefore by construction,
      every definition computes, and the examples run by [vm_compute].
    - pandas 2 names: [value_counts()] names its Series ["count"], so
      [reset_index()] gives the columns [State] and [count] before the
      renaming of line 133 (pandas 1 gave [index] and [State]; both have
      two columns, which is all the renaming needs).
    - Integers of the frame are [Z] (Python ints are unbounded; a year
      column with missing values would be read as floats, which the model
      keeps as [CInt] keys with [CNaN] for the missing ones).
    - pandas's sort kind: [value_counts] sorts with [quicksort], which
      does not promise an order among equal counts; the order proofs
      therefore go through [CountSort], and the tie rule is proved for the
      stable instance only.
    - Not modelled: CSV parsing inside [pd.read_csv] (the file's state is
      an input: missing, unreadable or a frame), the drawing done by
      Streamlit and Plotly (the model stops at the list of elements and
      figures), [st.set_page_config]'s own checks, and Streamlit's rerun
      scheduling (a run is one call of [App.app_run]).

    ** Not covered by theorems

    - no refinement of [app_run] against an abstract page specification
      (the "capability descriptor" of the spec's design notes);
    - the user's interaction with the radio is modelled one run at a
      time ([Pages.radio_value] of the widget's value), not as a step
      relation on the widget state. *)

From stdpp Require Import base list strings.
From Stdlib Require Import Sorted Permutation.

(** * The render monad

    A run of a Streamlit script is a sequence of calls that each append
    one element to the page, and any call may raise a Python exception
    that ends the run (Streamlit shows the traceback and keeps what was
    already drawn).  [RW W E A] is that effect: the elements written so
    far and either the exception or the result. *)

Record RW (W E A : Type) := mkRW { rw_out : list W; rw_res : E + A }.
Arguments mkRW {W E A} _ _.
Arguments rw_out {W E A} _.
Arguments rw_res {W E A} _.

Declare Scope render_scope.
Delimit Scope render_scope with render.

Section RenderMonad.
Context {W E : Type}.

Definition rw_ret {A} (a : A) : RW W E A := mkRW [] (inr a).

Definition rw_bind {A B} (m : RW W E A) (f : A -> RW W E B) : RW W E B :=
  match rw_res m with
  | inl e => mkRW (rw_out m) (inl e)
  | inr a => mkRW (rw_out m ++ rw_out (f a)) (rw_res (f a))
  end.

(** [st.xxx(...)]: one element appended to the page. *)
Definition emit (w : W) : RW W E unit := mkRW [w] (inr tt).

(** [raise e]. *)
Definition rw_raise {A} (e : E) : RW W E A := mkRW [] (inl e).

(** [try: m except <class selected by sel> as e: h e]: exceptions that
    [sel] does not select are re-raised. *)
Definition rw_try {A} (m : RW W E A) (sel : E -> bool) (h : E -> RW W E A)
    : RW W E A :=
  match rw_res m with
  | inl e => if sel e then mkRW (rw_out m ++ rw_out (h e)) (rw_res (h e))
             else m
  | inr _ => m
  end.

Lemma rw_eta {A} (m : RW W E A) : mkRW (rw_out m) (rw_res m) = m.
Proof. by destruct m. Qed.

Lemma rw_bind_ret_l {A B} (a : A) (f : A -> RW W E B) :
  rw_bind (rw_ret a) f = f a.
Proof. unfold rw_bind; simpl. apply rw_eta. Qed.

Lemma rw_bind_ret_r {A} (m : RW W E A) : rw_bind m rw_ret = m.
Proof.
  destruct m as [o [e|a]]; unfold rw_bind; simpl; [done|].
  by rewrite app_nil_r.
Qed.

Lemma rw_bind_assoc {A B C} (m : RW W E A) (f : A -> RW W E B)
    (g : B -> RW W E C) :
  rw_bind (rw_bind m f) g = rw_bind m (fun a => rw_bind (f a) g).
Proof.
  destruct m as [o [e|a]]; unfold rw_bind; simpl; [done|].
  destruct (f a) as [o' [e'|b]]; simpl; [done|].
  by rewrite app_assoc.
Qed.

(** Binding to two continuations that agree on every value. *)
Lemma rw_bind_ext {A B} (m : RW W E A) (f g : A -> RW W E B) :
  (forall a, f a = g a) -> rw_bind m f = rw_bind m g.
Proof. intros Hfg. unfold rw_bind. destruct (rw_res m); [done|]. by rewrite Hfg. Qed.

(** A computation that never raises: [rw_ok m] holds when its result is
    a value. *)
Definition rw_ok {A} (m : RW W E A) : bool :=
  match rw_res m with inr _ => true | inl _ => false end.

End RenderMonad.

Notation "x <- m ;; k" := (rw_bind m (fun x => k))
  (at level 100, m at next level, right associativity) : render_scope.
Notation "m ;;; k" := (rw_bind m (fun _ => k))
  (at level 100, right associativity) : render_scope.

Create HintDb dash.

(** * Counting occurrences *)

(** [occ x l]: how many cells of [l] equal [x] (the count pandas reports
    for [x]). *)
Definition occ `{EqDecision A} (x : A) (l : list A) : nat :=
  count_occ (fun a b => decide (a = b)) l x.

Section Occ.
Context `{EqDecision A}.

Lemma occ_nil (x : A) : occ x [] = 0.
Proof. done. Qed.

Lemma occ_cons (x y : A) l :
  occ x (y :: l) = (if decide (y = x) then 1 else 0) + occ x l.
Proof. unfold occ; simpl. by case_decide. Qed.

(** Counts do not see the order of the list. *)
#[export] Instance occ_proper : Proper (eq ==> Permutation ==> eq) (@occ A _).
Proof. intros x ? <- l1 l2 Hl. by apply Permutation_count_occ. Qed.
End Occ.

(** * Sums of counts *)

Definition sum_counts {K} (l : list (K * nat)) : nat := sum_list (map snd l).

Lemma sum_counts_app {K} (l1 l2 : list (K * nat)) :
  sum_counts (l1 ++ l2) = sum_counts l1 + sum_counts l2.
Proof. unfold sum_counts. by rewrite map_app, sum_list_with_app. Qed.

Lemma sum_counts_perm {K} (l1 l2 : list (K * nat)) :
  Permutation l1 l2 -> sum_counts l1 = sum_counts l2.
Proof.
  induction 1; unfold sum_counts in *; simpl; lia.
Qed.

Lemma sum_counts_take {K} n (l : list (K * nat)) :
  sum_counts (take n l) <= sum_counts l.
Proof.
  rewrite <- (take_drop n l) at 2. rewrite sum_counts_app. lia.
Qed.

(** * Folds with an invariant *)

Lemma foldl_invariant {A B} (P : A -> Prop) (f : A -> B -> A) (a : A) l :
  (forall x b, P x -> P (f x b)) -> P a -> P (foldl f a l).
Proof. intros Hf. revert a; induction l; simpl; auto. Qed.

(** * Distinct values in order of first appearance *)

(** The reference for "keys in first-seen order": keep each value at its
    first occurrence and drop the later ones. *)
Fixpoint first_seen `{EqDecision A} (l : list A) : list A :=
  match l with
  | [] => []
  | x :: l => x :: filter (fun y => y <> x) (first_seen l)
  end.

(** Projecting the keys of the pairs that pass a test on counts, when
    every count is a function [f] of its key. *)
Lemma fmap_fst_filter_snd {K} (f : K -> nat) (c : nat) (t : list (K * nat)) :
  Forall (fun p => p.2 = f p.1) t ->
  (filter (fun p => p.2 = c) t).*1 = filter (fun k => f k = c) t.*1.
Proof.
  induction 1 as [|[k n] t Hk _ IH]; [done|]. simpl in Hk; subst.
  rewrite filter_cons, fmap_cons, filter_cons. simpl.
  case_decide; rewrite ?fmap_cons; by rewrite IH.
Qed.

(** Every element of the first part of a strongly sorted list is related
    to every element of the second part. *)
Lemma StronglySorted_app_rel {A} (R : A -> A -> Prop) l1 l2 x y :
  StronglySorted R (l1 ++ l2) -> x ∈ l1 -> y ∈ l2 -> R x y.
Proof.
  induction l1 as [|z l1 IH]; simpl; [by intros _ ?%elem_of_nil|].
  intros [Hs Hz]%StronglySorted_inv [->|Hx]%elem_of_cons Hy; [|by apply IH].
  rewrite Forall_app, !Forall_forall in Hz. by apply Hz.
Qed.

(** A prefix of a strongly sorted list is strongly sorted. *)
Lemma StronglySorted_take {A} (R : A -> A -> Prop) n l :
  StronglySorted R l -> StronglySorted R (take n l).
Proof.
  revert l; induction n as [|n IH]; intros [|x l] Hs; simpl; try constructor.
  - apply IH. by apply StronglySorted_inv in Hs as [? _].
  - apply StronglySorted_inv in Hs as [_ Hx]. rewrite Forall_forall in Hx |- *.
    intros y Hy. apply Hx. by apply (subseteq_take n).
Qed.

(** * Which exceptions a computation can raise *)

Section RaisesOnly.
Context {W E : Type} (P : E -> Prop).

Definition raises_only {A} (m : RW W E A) : Prop :=
  forall e, rw_res m = inl e -> P e.

Lemma raises_only_ret {A} (a : A) : raises_only (rw_ret a).
Proof. by intros e. Qed.

Lemma raises_only_emit (w : W) : raises_only (emit w).
Proof. by intros e. Qed.

Lemma raises_only_raise {A} e : P e -> raises_only (A := A) (rw_raise e).
Proof. by intros ? e' [= <-]. Qed.

Lemma raises_only_bind {A B} (m : RW W E A) (f : A -> RW W E B) :
  raises_only m -> (forall a, rw_res m = inr a -> raises_only (f a)) ->
  raises_only (rw_bind m f).
Proof.
  unfold raises_only, rw_bind. intros Hm Hf e.
  destruct (rw_res m) as [e'|a] eqn:Hr; simpl; [intros [= <-]; by apply Hm|].
  by apply Hf.
Qed.
End RaisesOnly.

#[export] Hint Resolve raises_only_ret raises_only_emit raises_only_raise : dash.

(** Split a computation into its statements and discharge each. *)
Ltac raises_only_solve :=
  repeat first [apply raises_only_bind; [|intros ? _] | progress auto with dash];
  auto with dash.


(** Two lists strictly sorted by the same asymmetric relation that are
    permutations of each other are equal. *)
Lemma StronglySorted_perm_eq {A} (R : A -> A -> Prop)
    (Hasym : forall x y, R x y -> R y x -> False) (l1 l2 : list A) :
  StronglySorted R l1 -> StronglySorted R l2 -> l1 ≡ₚ l2 -> l1 = l2.
Proof.
  intros H1. revert l2. induction H1 as [|x l1 Hs1 IH Hx]; intros l2 H2 Hp.
  - symmetry. by apply Permutation_nil.
  - destruct l2 as [|y l2]; [by symmetry in Hp; apply Permutation_nil_cons in Hp|].
    apply StronglySorted_inv in H2 as [Hs2 Hy].
    assert (x = y) as <-.
    { assert (Hxin : x ∈ y :: l2) by (rewrite <- Hp; left).
      assert (Hyin : y ∈ x :: l1) by (rewrite Hp; left).
      apply elem_of_cons in Hxin as [?|Hxin]; [done|].
      apply elem_of_cons in Hyin as [?|Hyin]; [done|].
      rewrite Forall_forall in Hx, Hy. exfalso. eapply Hasym; [apply Hx|apply Hy]; done. }
    f_equal. apply IH; [done|]. by apply Permutation_cons_inv in Hp.
Qed.

(** A table whose counts are a function of its keys is that function
    tabulated over its keys. *)
Lemma table_of_keys {K} (f : K -> nat) (t : list (K * nat)) :
  Forall (fun p => p.2 = f p.1) t -> t = (fun k => (k, f k)) <$> t.*1.
Proof.
  induction 1 as [|[k n] t Hk _ IH]; [done|]. simpl in Hk; subst.
  rewrite !fmap_cons. f_equal. exact IH.
Qed.
