(* ===== verification/Frame.v ===== *)
(** * The pandas DataFrame as dashboard.py uses it

    A cell is an integer (the parsed [Model Year]), a string (every other
    column of the CSV) or the missing value [NaN]; a frame is its column
    names and its rows.  The operations are the ones the script calls on
    [df_original]: [.empty], [.columns] membership, [df[col]], [.head()],
    [.shape] and [pd.DataFrame()]. *)

From stdpp Require Import base list sets strings.
From Stdlib Require Import ZArith.
From S2P Require Import Prelude.

Inductive cell :=
| CInt (z : Z)
| CStr (s : string)
| CNaN.

#[export] Instance cell_eq_dec : EqDecision cell.
Proof. solve_decision. Defined.

Definition is_nan (c : cell) : bool :=
  match c with CNaN => true | _ => false end.

Record DataFrame := mkDF { df_columns : list string; df_rows : list (list cell) }.

Module Frame.

(** [pd.DataFrame()]: no columns and no rows. *)
Definition empty_DataFrame : DataFrame := mkDF [] [].

(** A frame as [read_csv] builds it: distinct column names (duplicate
    headers are renamed [X.1], ...) and every row as wide as the header. *)
Definition df_wf (df : DataFrame) : Prop :=
  NoDup (df_columns df) /\
  Forall (fun r => length r = length (df_columns df)) (df_rows df).

#[export] Instance df_wf_dec df : Decision (df_wf df).
Proof. unfold df_wf. apply _. Defined.

(** [df.empty]: true when either axis has length 0. *)
Definition empty (df : DataFrame) : bool :=
  (length (df_rows df) =? 0) || (length (df_columns df) =? 0).

(** [c in df.columns]. *)
Definition has_column (c : string) (df : DataFrame) : bool :=
  bool_decide (c ∈ df_columns df).

Fixpoint column_index (c : string) (cols : list string) : option nat :=
  match cols with
  | [] => None
  | c' :: cols => if String.eqb c' c then Some 0 else S <$> column_index c cols
  end.

(** [df[c]]: the column as a list of cells, or [None] where pandas
    raises [KeyError]. *)
Definition get_column (c : string) (df : DataFrame) : option (list cell) :=
  i ← column_index c (df_columns df);
  Some (map (fun r => nth i r CNaN) (df_rows df)).

(** [df.head(n)]. *)
Definition head (n : nat) (df : DataFrame) : DataFrame :=
  mkDF (df_columns df) (take n (df_rows df)).

(** [df.shape]. *)
Definition shape (df : DataFrame) : nat * nat :=
  (length (df_rows df), length (df_columns df)).

(** A count as pandas stores it in a frame (an [int64] cell). *)
Definition count_cell (n : nat) : cell := CInt (Z.of_nat n).

(** [s.reset_index()] on a Series of counts: a two-column frame, the
    index first under [index_name], the counts under [value_name]. *)
Definition reset_index (index_name value_name : string) (s : list (cell * nat)) : DataFrame :=
  mkDF [index_name; value_name] (map (fun p => [p.1; count_cell p.2]) s).

(** [df.columns = cols]: [None] where pandas raises [ValueError]
    ("Length mismatch"). *)
Definition set_columns (cols : list string) (df : DataFrame) : option DataFrame :=
  if length cols =? length (df_columns df) then Some (mkDF cols (df_rows df)) else None.

Lemma column_index_Some c cols :
  is_Some (column_index c cols) <-> c ∈ cols.
Proof.
  induction cols as [|c' cols IH]; simpl.
  - split; [by intros []|]. intros ?%elem_of_nil. done.
  - rewrite elem_of_cons. destruct (String.eqb_spec c' c) as [->|Hne].
    + split; [by left|]. intros; by eexists.
    + rewrite fmap_is_Some, IH. naive_solver.
Qed.

Lemma get_column_Some c df :
  is_Some (get_column c df) <-> has_column c df = true.
Proof.
  unfold get_column, has_column. rewrite bool_decide_eq_true.
  rewrite <- column_index_Some.
  destruct (column_index c (df_columns df)); simpl; split; intros []; by eauto.
Qed.

Lemma head_wf n df : df_wf df -> df_wf (head n df).
Proof.
  intros [Hnd Hrows]. split; [done|]. simpl.
  by apply Forall_take.
Qed.

Lemma empty_false_iff df :
  empty df = false <-> 0 < length (df_rows df) /\ 0 < length (df_columns df).
Proof.
  unfold empty. rewrite orb_false_iff, !Nat.eqb_neq. lia.
Qed.

Lemma get_column_reset_index_key i v s :
  get_column i (reset_index i v s) = Some s.*1.
Proof.
  unfold get_column, reset_index. simpl. rewrite String.eqb_refl. simpl.
  f_equal. rewrite map_map. by induction s as [|[k n] s IH]; simpl; f_equal.
Qed.

Lemma get_column_reset_index_value i v s :
  i <> v -> get_column v (reset_index i v s) = Some (count_cell <$> s.*2).
Proof.
  intros Hne. unfold get_column, reset_index. simpl.
  rewrite (proj2 (String.eqb_neq i v) Hne), String.eqb_refl. simpl.
  f_equal. rewrite map_map. by induction s as [|[k n] s IH]; simpl; f_equal.
Qed.

(** Renaming the columns of a frame built by [reset_index]. *)
Lemma set_columns_reset_index a b i v s :
  set_columns [a; b] (reset_index i v s) = Some (reset_index a b s).
Proof. done. Qed.

Lemma reset_index_wf i v s : i <> v -> df_wf (reset_index i v s).
Proof.
  intros Hne. split.
  - simpl. repeat constructor; set_solver.
  - apply Forall_forall. intros r (p & -> & _)%list_elem_of_fmap. done.
Qed.

End Frame.
