(* ===== verification/Counts.v ===== *)
(** * Counting values: [Series.value_counts()] and [groupby(...).size()]

    pandas counts a column with a hash table that keeps its keys in the
    order they are first met and skips the missing values ([dropna=True]);
    [value_counts] then orders the pairs by decreasing count, and
    [groupby(col).size()] orders them by increasing key.  [tally] is that
    hash-table pass; the ordering by count is taken through the
    [CountSort] interface, because pandas's default sort kind
    ([quicksort]) does not promise an order among equal counts; the
    stable instance [stable_count_sort] gives the order the spec
    states. *)

From Stdlib Require Import ZArith Sorted Permutation.
From stdpp Require Import base list sets strings.
From S2P Require Import Prelude Frame.

Module Tally.

(** One step of the hash-table pass: add 1 to [k]'s count, or append
    [(k, 1)] when [k] is new. *)
Fixpoint bump (k : cell) (t : list (cell * nat)) : list (cell * nat) :=
  match t with
  | [] => [(k, 1)]
  | (k', n) :: t => if decide (k' = k) then (k', S n) :: t else (k', n) :: bump k t
  end.

Definition tally_step (t : list (cell * nat)) (c : cell) : list (cell * nat) :=
  if is_nan c then t else bump c t.

(** The table of counts of a column, keys in first-seen order. *)
Definition tally (col : list cell) : list (cell * nat) := foldl tally_step [] col.

(** The count a table holds for [k] (0 when absent). *)
Fixpoint count_of (k : cell) (t : list (cell * nat)) : nat :=
  match t with
  | [] => 0
  | (k', n) :: t => if decide (k' = k) then n else count_of k t
  end.

(** The table's invariant: distinct keys, positive counts, no NaN key. *)
Definition table_inv (t : list (cell * nat)) : Prop :=
  NoDup t.*1 /\ Forall (fun p => 0 < p.2 /\ p.1 <> CNaN) t.

Lemma keys_bump k t :
  (bump k t).*1 = if decide (k ∈ t.*1) then t.*1 else t.*1 ++ [k].
Proof.
  induction t as [|[k' n] t IH]; [done|]. cbn [bump].
  destruct (decide (k' = k)) as [->|Hne].
  - rewrite !fmap_cons, decide_True; [done|set_solver].
  - rewrite !fmap_cons, IH. simpl fst.
    destruct (decide (k ∈ t.*1)), (decide (k ∈ k' :: t.*1)); try done; set_solver.
Qed.

Lemma count_of_bump k c t :
  count_of k (bump c t) = (if decide (c = k) then 1 else 0) + count_of k t.
Proof.
  induction t as [|[k' n] t IH]; simpl.
  - by repeat case_decide.
  - destruct (decide (k' = c)) as [->|]; cbn [count_of];
      rewrite ?IH; repeat case_decide; simplify_eq; lia.
Qed.

Lemma sum_counts_bump k t : sum_counts (bump k t) = S (sum_counts t).
Proof.
  unfold sum_counts. induction t as [|[k' n] t IH]; simpl; [done|].
  case_decide; simpl; lia.
Qed.

Lemma bump_inv k t : k <> CNaN -> table_inv t -> table_inv (bump k t).
Proof.
  intros Hk [Hnd Hpos]. split.
  - rewrite keys_bump. case_decide; [done|].
    apply NoDup_app. split; [done|]. split; [set_solver|]. apply NoDup_singleton.
  - induction t as [|[k' n] t IH]; simpl; [by repeat constructor|].
    inversion Hpos as [|? ? Hp Hrest]; subst. simpl in Hnd.
    apply NoDup_cons in Hnd as [_ Hnd].
    case_decide; constructor; simpl in *; try lia; auto. naive_solver lia.
Qed.

Lemma tally_step_inv t c : table_inv t -> table_inv (tally_step t c).
Proof.
  unfold tally_step. destruct c; simpl; try done; apply bump_inv; done.
Qed.

Lemma tally_inv col : table_inv (tally col).
Proof.
  unfold tally. apply foldl_invariant; [apply tally_step_inv|].
  split; [constructor|done].
Qed.

Lemma count_of_tally_acc k t col :
  count_of k (foldl tally_step t col) =
  count_of k t + (if is_nan k then 0 else occ k col).
Proof.
  revert t; induction col as [|c col IH]; intros t; cbn [foldl].
  - rewrite occ_nil. destruct (is_nan k); lia.
  - rewrite IH, occ_cons. unfold tally_step.
    destruct c; simpl; try rewrite count_of_bump;
      destruct k; simpl; repeat case_decide; simplify_eq; lia.
Qed.

Lemma count_of_tally k col :
  count_of k (tally col) = if is_nan k then 0 else occ k col.
Proof. unfold tally. by rewrite count_of_tally_acc. Qed.

Lemma count_of_pos_keys k t : 0 < count_of k t -> k ∈ t.*1.
Proof.
  induction t as [|[k' n] t IH]; simpl; [lia|].
  case_decide; subst; [left|]. intros ?. right. auto.
Qed.

(** In a table with distinct keys, the pairs are exactly the keys with
    their positive counts. *)
Lemma table_elem_of k n t :
  table_inv t -> (k, n) ∈ t <-> 0 < count_of k t /\ n = count_of k t.
Proof.
  intros [Hnd Hpos]. induction t as [|[k' m] t IH]; simpl.
  - rewrite elem_of_nil. lia.
  - simpl in Hnd. apply NoDup_cons in Hnd as [Hk' Hnd].
    apply Forall_cons in Hpos as [[Hm _] Hpos].
    rewrite elem_of_cons, IH by done. case_decide as Hkk; subst.
    + split; [|intros [_ ->]; by left].
      intros [[= ->]|[Hc ->]]; [simpl in Hm; lia|].
      exfalso. by apply Hk', count_of_pos_keys.
    + split; [|by right]. by intros [[= -> ->]|?].
Qed.

Lemma sum_counts_tally_acc t col :
  sum_counts (foldl tally_step t col) =
  sum_counts t + length (filter (fun c => c <> CNaN) col).
Proof.
  revert t; induction col as [|c col IH]; intros t; simpl; [lia|].
  rewrite IH, filter_cons. unfold tally_step.
  destruct c; simpl; try rewrite sum_counts_bump; simpl; lia.
Qed.

Lemma keys_tally_acc t col :
  (foldl tally_step t col).*1 =
  t.*1 ++ filter (fun k => k ∉ t.*1) (first_seen (filter (fun c => c <> CNaN) col)).
Proof.
  revert t; induction col as [|c col IH]; intros t; cbn [foldl].
  - by rewrite app_nil_r.
  - rewrite IH. unfold tally_step. rewrite filter_cons.
    destruct (is_nan c) eqn:Hc.
    + by destruct c.
    + rewrite decide_True by (by destruct c). cbn [first_seen].
      rewrite keys_bump, filter_cons, list_filter_filter.
      destruct (decide (c ∈ t.*1)) as [Hin|Hin].
      * rewrite decide_False by tauto. f_equal.
        apply list_filter_iff. set_solver.
      * rewrite decide_True by done. rewrite <- app_assoc. simpl. do 2 f_equal.
        apply list_filter_iff. set_solver.
Qed.

End Tally.

Section TallySpec.
Import Tally.

(** The pairs of the table of a column: each non-missing value of the
    column, with the number of its occurrences. *)
Lemma tally_elem_of k n col :
  (k, n) ∈ tally col <-> k <> CNaN /\ 0 < occ k col /\ n = occ k col.
Proof.
  rewrite table_elem_of by apply tally_inv. rewrite count_of_tally.
  destruct k; simpl; naive_solver lia.
Qed.

Lemma tally_keys_nodup col : NoDup (tally col).*1.
Proof. apply tally_inv. Qed.

Lemma tally_keys col :
  (tally col).*1 = first_seen (filter (fun c => c <> CNaN) col).
Proof.
  unfold tally. rewrite keys_tally_acc. simpl.
  induction (first_seen _) as [|k l IH]; [done|].
  rewrite filter_cons_True by set_solver. by f_equal.
Qed.

Lemma tally_counts col : Forall (fun p => p.2 = occ p.1 col) (tally col).
Proof.
  apply Forall_forall. intros [k n] Hk. apply tally_elem_of in Hk. naive_solver.
Qed.

(** The table of a reordered column is a reordering of the table. *)
Lemma tally_perm col1 col2 : col1 ≡ₚ col2 -> tally col1 ≡ₚ tally col2.
Proof.
  intros Hc. apply NoDup_Permutation.
  - eapply NoDup_fmap_1, tally_keys_nodup.
  - eapply NoDup_fmap_1, tally_keys_nodup.
  - intros [k n]. rewrite !tally_elem_of. by rewrite Hc.
Qed.

Lemma tally_sum col :
  sum_counts (tally col) = length (filter (fun c => c <> CNaN) col).
Proof. unfold tally. by rewrite sum_counts_tally_acc. Qed.
End TallySpec.

(** * Ordering by count: the interface and a stable implementation *)

(** [p] comes before [q] in a list ordered by decreasing count. *)
Definition count_desc {K} (p q : K * nat) : Prop := q.2 <= p.2.

(** What [value_counts] asks of its sort: it reorders the table and leaves
    the counts non-increasing. *)
Class CountSort := {
  count_sort {K : Type} : list (K * nat) -> list (K * nat);
  count_sort_perm {K : Type} (l : list (K * nat)) : count_sort l ≡ₚ l;
  count_sort_sorted {K : Type} (l : list (K * nat)) :
    Sorted count_desc (count_sort l)
}.

Module StableSort.

(** Insert [p] before the first pair whose count is not larger. *)
Fixpoint insert_desc {K} (p : K * nat) (l : list (K * nat)) : list (K * nat) :=
  match l with
  | [] => [p]
  | q :: l' => if q.2 <=? p.2 then p :: l else q :: insert_desc p l'
  end.

Definition sort_desc {K} (l : list (K * nat)) : list (K * nat) :=
  foldr insert_desc [] l.

Lemma insert_desc_perm {K} (p : K * nat) l : insert_desc p l ≡ₚ p :: l.
Proof.
  induction l as [|q l IH]; simpl; [done|].
  destruct (q.2 <=? p.2); [done|]. rewrite IH. apply perm_swap.
Qed.

Lemma insert_desc_sorted {K} (p : K * nat) l :
  Sorted count_desc l -> Sorted count_desc (insert_desc p l).
Proof.
  unfold count_desc. induction 1 as [|q l Hl IH Hhd]; simpl; [by repeat constructor|].
  destruct (Nat.leb_spec q.2 p.2).
  - by repeat constructor.
  - constructor; [done|]. destruct l as [|r l]; simpl; [constructor; lia|].
    inversion Hhd; subst. destruct (r.2 <=? p.2); constructor; lia.
Qed.

Lemma sort_desc_perm {K} (l : list (K * nat)) : sort_desc l ≡ₚ l.
Proof.
  induction l as [|p l IH]; simpl; [done|]. by rewrite insert_desc_perm, IH.
Qed.

Lemma sort_desc_sorted {K} (l : list (K * nat)) : Sorted count_desc (sort_desc l).
Proof. induction l; simpl; auto using insert_desc_sorted. Qed.

(** Stability: among pairs of one count, the order of the input is
    kept. *)
Lemma insert_desc_stable {K} (c : nat) (p : K * nat) l :
  filter (fun q => q.2 = c) (insert_desc p l) = filter (fun q => q.2 = c) (p :: l).
Proof.
  induction l as [|q l IH]; simpl; [done|].
  destruct (Nat.leb_spec q.2 p.2); [done|].
  rewrite filter_cons, IH, !filter_cons.
  repeat case_decide; try done; lia.
Qed.

Lemma sort_desc_stable {K} (c : nat) (l : list (K * nat)) :
  filter (fun q => q.2 = c) (sort_desc l) = filter (fun q => q.2 = c) l.
Proof.
  induction l as [|p l IH]; simpl; [done|].
  by rewrite insert_desc_stable, !filter_cons, IH.
Qed.

End StableSort.

#[export] Instance stable_count_sort : CountSort := {|
  count_sort := @StableSort.sort_desc;
  count_sort_perm := @StableSort.sort_desc_perm;
  count_sort_sorted := @StableSort.sort_desc_sorted
|}.

(** * [value_counts], [.head(n)] and [groupby(...).size()] *)

Section ValueCounts.
Context {CS : CountSort}.

(** [col.value_counts()]: the non-missing values with their counts,
    by decreasing count. *)
Definition value_counts (col : list cell) : list (cell * nat) :=
  count_sort (Tally.tally col).

(** [col.value_counts().head(n)]. *)
Definition top_n (n : nat) (col : list cell) : list (cell * nat) :=
  take n (value_counts col).

Lemma value_counts_elem_of k n col :
  (k, n) ∈ value_counts col <-> k <> CNaN /\ 0 < occ k col /\ n = occ k col.
Proof.
  unfold value_counts. by rewrite count_sort_perm, tally_elem_of.
Qed.

Lemma value_counts_keys_nodup col : NoDup (value_counts col).*1.
Proof.
  unfold value_counts. rewrite count_sort_perm. apply tally_keys_nodup.
Qed.

Lemma value_counts_sum col :
  sum_counts (value_counts col) = length (filter (fun c => c <> CNaN) col).
Proof.
  unfold value_counts. rewrite (sum_counts_perm _ _ (count_sort_perm _)).
  apply tally_sum.
Qed.

Lemma value_counts_length col :
  length (value_counts col) = length (first_seen (filter (fun c => c <> CNaN) col)).
Proof.
  unfold value_counts. by rewrite count_sort_perm, <-tally_keys, length_fmap.
Qed.

Lemma value_counts_strongly_sorted col :
  StronglySorted count_desc (value_counts col).
Proof.
  apply Sorted_StronglySorted; [|apply count_sort_sorted].
  intros p q r; unfold count_desc; lia.
Qed.
#[export] Instance value_counts_proper :
  Proper (Permutation ==> Permutation) value_counts.
Proof. intros c1 c2 Hc. unfold value_counts. rewrite !count_sort_perm. by apply tally_perm. Qed.
End ValueCounts.

(** * Ordering by key: [groupby(col).size()] *)

(** The order pandas sorts group keys in: numbers before strings (its
    [safe_sort] of mixed keys), numbers by value, strings by code point
    (the byte order of their UTF-8 encoding, which [String.ltb]
    compares). *)
Definition cell_ltb (a b : cell) : bool :=
  match a, b with
  | CInt x, CInt y => (x <? y)%Z
  | CInt _, CStr _ => true
  | CStr x, CStr y => String.ltb x y
  | _, _ => false
  end.

Definition key_lt (p q : cell * nat) : Prop := cell_ltb p.1 q.1 = true.

Lemma cell_ltb_total a b :
  a <> b -> a <> CNaN -> b <> CNaN -> cell_ltb a b = false -> cell_ltb b a = true.
Proof.
  destruct a as [x|x|], b as [y|y|]; simpl; try done.
  - rewrite Z.ltb_ge, Z.ltb_lt. intros Hne _ _ ?.
    assert (x <> y) by congruence. lia.
  - unfold String.ltb. rewrite (String.compare_antisym y x).
    intros Hne _ _. destruct (String.compare x y) eqn:E; simpl; try done.
    apply String.compare_eq_iff in E. congruence.
Qed.

Lemma ascii_compare_refl a : Ascii.compare a a = Eq.
Proof. apply N.compare_refl. Qed.

Lemma ascii_compare_lt_trans a b c :
  Ascii.compare a b = Lt -> Ascii.compare b c = Lt -> Ascii.compare a c = Lt.
Proof. unfold Ascii.compare. rewrite !N.compare_lt_iff. lia. Qed.

(** Lexicographic order on strings is transitive. *)
Lemma string_compare_lt_trans x y z :
  String.compare x y = Lt -> String.compare y z = Lt -> String.compare x z = Lt.
Proof.
  revert y z; induction x as [|a x IH]; intros [|b y] [|c z]; simpl; try done.
  destruct (Ascii.compare a b) eqn:Hab, (Ascii.compare b c) eqn:Hbc;
    intros H1 H2; try discriminate.
  - apply Ascii.compare_eq_iff in Hab, Hbc. subst. rewrite ascii_compare_refl. eauto.
  - apply Ascii.compare_eq_iff in Hab. subst. by rewrite Hbc.
  - apply Ascii.compare_eq_iff in Hbc. subst. by rewrite Hab.
  - by rewrite (ascii_compare_lt_trans _ _ _ Hab Hbc).
Qed.

Lemma cell_ltb_trans a b c :
  cell_ltb a b = true -> cell_ltb b c = true -> cell_ltb a c = true.
Proof.
  destruct a as [x|x|], b as [y|y|], c as [z|z|]; simpl; try done.
  - rewrite !Z.ltb_lt. lia.
  - unfold String.ltb. destruct (String.compare x y) eqn:Hxy; try done.
    destruct (String.compare y z) eqn:Hyz; try done.
    by rewrite (string_compare_lt_trans x y z).
Qed.

Lemma cell_ltb_irrefl a : cell_ltb a a = false.
Proof.
  destruct a as [x|x|]; simpl; [apply Z.ltb_irrefl| |done].
  unfold String.ltb. assert (String.compare x x = Eq) as ->; [|done].
  induction x as [|a x IH]; simpl; [done|]. by rewrite ascii_compare_refl.
Qed.

Module KeySort.

Fixpoint insert_key (p : cell * nat) (l : list (cell * nat)) : list (cell * nat) :=
  match l with
  | [] => [p]
  | q :: l' => if cell_ltb p.1 q.1 then p :: l else q :: insert_key p l'
  end.

Definition sort_by_key (l : list (cell * nat)) : list (cell * nat) :=
  foldr insert_key [] l.

Lemma insert_key_perm p l : insert_key p l ≡ₚ p :: l.
Proof.
  induction l as [|q l IH]; simpl; [done|].
  destruct (cell_ltb p.1 q.1); [done|]. rewrite IH. apply perm_swap.
Qed.

Lemma sort_by_key_perm l : sort_by_key l ≡ₚ l.
Proof.
  induction l as [|p l IH]; simpl; [done|]. by rewrite insert_key_perm, IH.
Qed.

(** Inserting a fresh, non-missing key into a strictly ascending list
    keeps it strictly ascending. *)
Lemma insert_key_sorted p l :
  p.1 <> CNaN -> Forall (fun q => q.1 <> CNaN /\ q.1 <> p.1) l ->
  Sorted key_lt l -> Sorted key_lt (insert_key p l).
Proof.
  unfold key_lt. intros Hp Hl Hs. induction Hs as [|q l Hl' IH Hhd]; simpl.
  - by repeat constructor.
  - apply Forall_cons in Hl as [[Hq Hqp] Hl].
    destruct (cell_ltb p.1 q.1) eqn:E; [by repeat constructor|].
    apply cell_ltb_total in E; [|congruence|done|done].
    constructor; [by apply IH|].
    destruct l as [|r l]; simpl; [by constructor|].
    inversion Hhd; subst. destruct (cell_ltb p.1 r.1); by constructor.
Qed.

End KeySort.

(** [col.groupby(col).size()] as (key, count) pairs, by increasing key. *)
Definition groupby_size (col : list cell) : list (cell * nat) :=
  KeySort.sort_by_key (Tally.tally col).

Lemma sort_by_key_sorted l : Tally.table_inv l -> Sorted key_lt (KeySort.sort_by_key l).
Proof.
  induction l as [|p l IH]; intros [Hnd Hpos]; simpl; [constructor|].
  rewrite fmap_cons in Hnd. apply NoDup_cons in Hnd as [Hp Hnd].
  apply Forall_cons in Hpos as [[_ HpN] Hpos].
  apply KeySort.insert_key_sorted; [done| |by apply IH].
  eapply Permutation_Forall; [symmetry; apply KeySort.sort_by_key_perm|].
  apply Forall_forall. intros q Hq. rewrite Forall_forall in Hpos.
  split; [apply Hpos, Hq|]. intros Heq. apply Hp. rewrite <- Heq.
  by apply list_elem_of_fmap_2.
Qed.

Lemma groupby_size_elem_of k n col :
  (k, n) ∈ groupby_size col <-> k <> CNaN /\ 0 < occ k col /\ n = occ k col.
Proof. unfold groupby_size. by rewrite KeySort.sort_by_key_perm, tally_elem_of. Qed.

Lemma groupby_size_strongly_sorted col : StronglySorted key_lt (groupby_size col).
Proof.
  apply Sorted_StronglySorted; [|apply sort_by_key_sorted, Tally.tally_inv].
  intros p q r; unfold key_lt; apply cell_ltb_trans.
Qed.

(** [groupby(col).size()] does not see the order of the rows at all. *)
#[export] Instance groupby_size_proper : Proper (Permutation ==> eq) groupby_size.
Proof.
  intros c1 c2 Hc. apply (StronglySorted_perm_eq key_lt); [|apply groupby_size_strongly_sorted..|].
  - unfold key_lt. intros p q Hpq Hqp. pose proof (cell_ltb_trans _ _ _ Hpq Hqp) as H.
    by rewrite cell_ltb_irrefl in H.
  - unfold groupby_size. rewrite !KeySort.sort_by_key_perm. by apply tally_perm.
Qed.

(** * Properties of the counting routines *)

Section Properties.
Context {CS : CountSort}.

(** C1. [value_counts] of a column lists each non-missing value of the
    column exactly once, with its exact number of occurrences, and
    nothing else; the counts are non-increasing. *)
Theorem value_counts_correct col :
  (forall k n, (k, n) ∈ value_counts col <-> k <> CNaN /\ 0 < occ k col /\ n = occ k col) /\
  NoDup (value_counts col).*1 /\
  Sorted count_desc (value_counts col).
Proof.
  split; [intros k n; apply value_counts_elem_of|].
  split; [apply value_counts_keys_nodup|unfold value_counts; apply count_sort_sorted].
Qed.

(** C2. [value_counts().head(n)] keeps exactly [min n d] entries, [d]
    being the number of distinct non-missing values; they are distinct
    values of the column with their exact counts, by non-increasing
    count, and every non-missing value left out occurs at most as often
    as each value kept. *)
Theorem top_n_largest n col :
  length (top_n n col) = min n (length (first_seen (filter (fun c => c <> CNaN) col))) /\
  NoDup (top_n n col).*1 /\
  (forall k c, (k, c) ∈ top_n n col -> k <> CNaN /\ 0 < c /\ c = occ k col) /\
  StronglySorted count_desc (top_n n col) /\
  (forall p k, p ∈ top_n n col -> k <> CNaN -> k ∉ (top_n n col).*1 -> occ k col <= p.2).
Proof.
  unfold top_n. pose proof (take_drop n (value_counts col)) as Hsplit.
  split; [by rewrite length_take, value_counts_length|].
  split.
  { pose proof (value_counts_keys_nodup col) as Hnd.
    rewrite <-Hsplit, fmap_app, NoDup_app in Hnd. naive_solver. }
  split.
  { intros k c Hk%(subseteq_take n)%value_counts_elem_of. naive_solver. }
  split; [apply StronglySorted_take, value_counts_strongly_sorted|].
  intros p k Hp Hk Hout. destruct (decide (occ k col = 0)) as [->|Hocc]; [lia|].
  assert (Hin : (k, occ k col) ∈ value_counts col) by (apply value_counts_elem_of; split_and!; [done|lia|done]).
  rewrite <-Hsplit, elem_of_app in Hin. destruct Hin as [Hin|Hin].
  - destruct Hout. by apply (list_elem_of_fmap_2 fst) in Hin.
  - apply (StronglySorted_app_rel count_desc (take n (value_counts col))
      (drop n (value_counts col)) p (k, occ k col)); [|done..].
    rewrite Hsplit. apply value_counts_strongly_sorted.
Qed.

(** C5. The counts of [value_counts] add up to the number of
    non-missing cells of the column. *)
Theorem value_counts_total col :
  sum_counts (value_counts col) = length (filter (fun c => c <> CNaN) col) /\
  sum_counts (value_counts col) <= length col.
Proof.
  rewrite value_counts_sum. split; [done|]. apply length_filter.
Qed.
End Properties.

(** C3. [groupby(col).size()] lists the non-missing values by strictly
    increasing key, each once, with its exact number of rows. *)
Theorem groupby_size_correct col :
  StronglySorted key_lt (groupby_size col) /\
  NoDup (groupby_size col).*1 /\
  (forall k n, (k, n) ∈ groupby_size col <-> k <> CNaN /\ 0 < occ k col /\ n = occ k col).
Proof.
  split; [apply groupby_size_strongly_sorted|].
  split; [|intros k n; apply groupby_size_elem_of].
  unfold groupby_size. rewrite KeySort.sort_by_key_perm. apply tally_keys_nodup.
Qed.

(** C4. With a stable sort, values of equal count appear in
    [value_counts] in the order of their first occurrence in the column:
    the values of count [c], read in order, are the distinct values of
    the column of count [c] in first-seen order. *)
Theorem value_counts_tie_order c col :
  (filter (fun p => p.2 = c) (value_counts (CS := stable_count_sort) col)).*1 =
  filter (fun k => occ k col = c) (first_seen (filter (fun x => x <> CNaN) col)).
Proof.
  unfold value_counts; simpl. rewrite StableSort.sort_desc_stable.
  rewrite (fmap_fst_filter_snd (fun k => occ k col)) by apply tally_counts.
  by rewrite tally_keys.
Qed.

(** C17. The counts depend only on the values of the column, not on the
    order of the rows: reordering the rows reorders [value_counts] (for
    any sort), keeps its total, and leaves [groupby(col).size()]
    unchanged. *)
Theorem counts_row_order_invariant `{CS : CountSort} col1 col2 :
  col1 ≡ₚ col2 ->
  value_counts col1 ≡ₚ value_counts col2 /\ groupby_size col1 = groupby_size col2 /\
  sum_counts (value_counts col1) = sum_counts (value_counts col2).
Proof.
  intros Hc. split; [by rewrite Hc|]. split; [by rewrite Hc|].
  apply sum_counts_perm. by rewrite Hc.
Qed.

Lemma counts_row_order_invariant_witness :
  [CStr "KIA"; CStr "TESLA"; CStr "KIA"] ≡ₚ [CStr "TESLA"; CStr "KIA"; CStr "KIA"] /\
  value_counts [CStr "KIA"; CStr "TESLA"; CStr "KIA"] ≡ₚ
    value_counts [CStr "TESLA"; CStr "KIA"; CStr "KIA"] /\
  groupby_size [CStr "KIA"; CStr "TESLA"; CStr "KIA"] =
    groupby_size [CStr "TESLA"; CStr "KIA"; CStr "KIA"] /\
  sum_counts (value_counts [CStr "KIA"; CStr "TESLA"; CStr "KIA"]) =
    sum_counts (value_counts [CStr "TESLA"; CStr "KIA"; CStr "KIA"]).
Proof.
  assert (H : [CStr "KIA"; CStr "TESLA"; CStr "KIA"] ≡ₚ [CStr "TESLA"; CStr "KIA"; CStr "KIA"])
    by apply perm_swap.
  split; [exact H|]. apply (counts_row_order_invariant _ _ H).
Defined.

(** C23. Equivalence with the reference: the one-pass hash-table count
    [Tally.tally] equals the naive definition, which lists the distinct
    non-missing values in order of first appearance, each paired with
    its number of occurrences. *)
Theorem tally_reference col :
  Tally.tally col =
  (fun k => (k, occ k col)) <$> first_seen (filter (fun c => c <> CNaN) col).
Proof. by rewrite (table_of_keys _ _ (tally_counts col)) at 1; rewrite tally_keys. Qed.

