(* ===== verification/Streamlit.v ===== *)
(** * The Streamlit and Plotly calls of dashboard.py

    The page a run draws is the list of elements the [st.*] calls append,
    in call order; [with st.sidebar:] and [with colN:] place an element in
    a container.  [px.*] calls build a figure that [st.plotly_chart] draws.
    The exceptions are the three the script can raise: the two kinds of
    [pd.read_csv] failure and the [KeyError] of [df[col]]. *)

From stdpp Require Import base list strings.
From S2P Require Import Prelude Frame.

Inductive exn :=
| FileNotFoundError (path : string)
(** any other exception of [pd.read_csv]: [PermissionError],
    [IsADirectoryError], [ParserError], [UnicodeDecodeError], ... *)
| ReadError (path : string)
| KeyError (key : string)
(** [ValueError] of pandas ("Length mismatch" on [df.columns = ...]) and
    of Plotly Express (an argument naming no column, arrays of different
    lengths). *)
| ValueError (what : string).

#[export] Instance exn_eq_dec : EqDecision exn.
Proof. solve_decision. Defined.

(** The figures [px.line], [px.pie] and [px.choropleth] build, with the
    data they read from their arguments. *)
Inductive figure :=
| FigLine (x y : list cell) (markers : bool) (title : string)
| FigPie (values : list nat) (names : list cell) (title : string)
| FigChoropleth (locations color : list cell) (locationmode scope title : string).

Inductive elem :=
| PageConfig (page_title page_icon layout : string)
| Title (s : string)
| Subheader (s : string)
| Markdown (s : string)
| Write (s : string)
| WriteShape (label : string) (shape : nat * nat)
| Info (s : string)
| Success (s : string)
| ErrorBox (s : string)
| Radio (label : string) (options : list string) (key : string) (value : string)
| Columns (n : nat)
| DataFrameView (df : DataFrame)
| BarChart (data : list (cell * nat))
| PlotlyChart (fig : figure)
| InSidebar (e : elem)
| InColumn (i : nat) (e : elem).

Abbreviation Render := (RW elem exn).

Definition is_error (e : elem) : bool :=
  match e with ErrorBox _ => true | _ => false end.

(** The elements drawn inside a [with] block go to its container. *)
Definition within {A} (place : elem -> elem) (m : Render A) : Render A :=
  mkRW (map place (rw_out m)) (rw_res m).

(** A Python string literal with [\n] separators. *)
Definition newline : string := String (Ascii.ascii_of_nat 10) EmptyString.

Fixpoint lines (l : list string) : string :=
  match l with
  | [] => ""
  | [s] => s
  | s :: l => s +:+ newline +:+ lines l
  end.

Definition is_chart (e : elem) : bool :=
  match e with BarChart _ | PlotlyChart _ => true | _ => false end.

Lemma raises_only_within {A} (P : exn -> Prop) place (m : Render A) :
  raises_only P m -> raises_only P (within place m).
Proof. done. Qed.

#[export] Hint Resolve raises_only_within : dash.

(** * Plotly Express: how the figure functions read their arguments *)

Module Px.

(** [px.line(data_frame, x=..., y=..., markers=..., title=...)]: [x] and
    [y] name columns of the frame. *)
Definition line (df : DataFrame) (x y : string) (markers : bool) (title : string)
    : Render figure :=
  match Frame.get_column x df, Frame.get_column y df with
  | Some xs, Some ys => rw_ret (FigLine xs ys markers title)
  | None, _ => rw_raise (ValueError x)
  | _, None => rw_raise (ValueError y)
  end.

(** [px.pie(values=..., names=..., title=...)] with arrays, which must
    have one length. *)
Definition pie (values : list nat) (names : list cell) (title : string) : Render figure :=
  if length values =? length names then rw_ret (FigPie values names title)
  else rw_raise (ValueError "All arguments should have the same length").

(** [px.choropleth(data_frame, locations=..., locationmode=...,
    color=..., scope=..., title=...)]. *)
Definition choropleth (df : DataFrame) (locations locationmode color scope title : string)
    : Render figure :=
  match Frame.get_column locations df, Frame.get_column color df with
  | Some ls, Some cs => rw_ret (FigChoropleth ls cs locationmode scope title)
  | None, _ => rw_raise (ValueError locations)
  | _, None => rw_raise (ValueError color)
  end.

End Px.

(** Plotting a frame built by [reset_index] reads back its Series. *)
Lemma line_reset_index i v s markers title :
  i <> v ->
  Px.line (Frame.reset_index i v s) i v markers title =
  rw_ret (FigLine s.*1 (Frame.count_cell <$> s.*2) markers title).
Proof.
  intros Hne. unfold Px.line.
  by rewrite Frame.get_column_reset_index_key, Frame.get_column_reset_index_value.
Qed.

Lemma choropleth_reset_index i v s locationmode scope title :
  i <> v ->
  Px.choropleth (Frame.reset_index i v s) i locationmode v scope title =
  rw_ret (FigChoropleth s.*1 (Frame.count_cell <$> s.*2) locationmode scope title).
Proof.
  intros Hne. unfold Px.choropleth.
  by rewrite Frame.get_column_reset_index_key, Frame.get_column_reset_index_value.
Qed.

(** The values and names of one Series always have one length. *)
Lemma pie_series (s : list (cell * nat)) title :
  Px.pie s.*2 s.*1 title = rw_ret (FigPie s.*2 s.*1 title).
Proof. unfold Px.pie. by rewrite !length_fmap, Nat.eqb_refl. Qed.
