(* ===== verification/Loader.v ===== *)
(** * [load_data] and the [@st.cache_data] cache (dashboard.py, lines 15-27)

    The CSV file is the one piece of outside state: at each run it is
    missing, present but unreadable, or readable as a frame.  [load_data]
    catches only [FileNotFoundError]; [st.cache_data] keeps, for the life
    of the server process, the value of the first call that returned, with
    the elements that call drew, and replays both on every later call. *)

From stdpp Require Import base list strings.
From S2P Require Import Prelude Frame Streamlit.

Local Open Scope render_scope.
Local Open Scope string_scope.

(** What [pd.read_csv] finds at the path. *)
Inductive csv_file :=
| Missing
| Unreadable
| Csv (df : DataFrame).

Module Loader.

Definition csv_path : string := "Electric_Vehicle_Population_Data 2.csv".

Definition not_found_msg : string :=
  "Erro: O arquivo 'Electric_Vehicle_Population_Data 2.csv' não foi encontrado.".

(** [pd.read_csv(path)]; parsing itself belongs to pandas. *)
Definition read_csv (path : string) (f : csv_file) : Render DataFrame :=
  match f with
  | Missing => rw_raise (FileNotFoundError path)
  | Unreadable => rw_raise (ReadError path)
  | Csv df => rw_ret df
  end.

Definition is_FileNotFoundError (e : exn) : bool :=
  match e with FileNotFoundError _ => true | _ => false end.

(** The body of [load_data]. *)
Definition load_data (f : csv_file) : Render DataFrame :=
  rw_try
    (df <- read_csv csv_path f ;; rw_ret df)
    is_FileNotFoundError
    (fun _ => emit (ErrorBox not_found_msg) ;;; rw_ret Frame.empty_DataFrame).

(** The cache of one cached function of no arguments: the value and the
    elements of the call that filled it. *)
Definition cache (A : Type) := option (list elem * A).

(** [@st.cache_data] around [body]: a hit replays the stored elements
    and returns the stored value; a miss runs [body] and stores its
    outcome only when it returned (an exception is not cached). *)
Definition cache_data {A} (c : cache A) (body : Render A) : cache A * Render A :=
  match c with
  | Some (out, v) => (c, mkRW out (inr v))
  | None =>
      match rw_res body with
      | inr v => (Some (rw_out body, v), body)
      | inl _ => (None, body)
      end
  end.

(** [df_original = load_data()] at line 27. *)
Definition df_original (c : cache DataFrame) (f : csv_file)
    : cache DataFrame * Render DataFrame :=
  cache_data c (load_data f).

End Loader.

Module Session.
Import Loader.

(** The cache after one run of line 27 with the file in state [f]. *)
Inductive reachable : cache DataFrame -> Prop :=
| reach_start : reachable None
| reach_run c f : reachable c -> reachable (df_original c f).1.

(** The outcomes of line 27 in successive runs of one server process,
    the file being in state [f_i] at run [i]. *)
Fixpoint runs (c : cache DataFrame) (fs : list csv_file) : list (Render DataFrame) :=
  match fs with
  | [] => []
  | f :: fs => (df_original c f).2 :: runs (df_original c f).1 fs
  end.

(** Once filled, the cache answers every later run with the same
    outcome, whatever the file has become. *)
Lemma runs_hit out v fs :
  runs (Some (out, v)) fs = replicate (length fs) (mkRW out (inr v)).
Proof. induction fs as [|f fs IH]; simpl; [done|]. by f_equal. Qed.

Lemma df_original_miss_ok f v :
  rw_res (load_data f) = inr v ->
  df_original None f = (Some (rw_out (load_data f), v), load_data f).
Proof. unfold df_original, cache_data. by intros ->. Qed.

(** A second call after one that returned is answered from the cache
    with the same outcome. *)
Lemma df_original_replay c f f' :
  rw_ok (df_original c f).2 = true -> df_original (df_original c f).1 f' = df_original c f.
Proof.
  destruct c as [[out v]|]; [done|]. unfold df_original, cache_data, rw_ok.
  destruct (rw_res (load_data f)) as [|v] eqn:Hr; simpl; [by rewrite Hr|].
  intros _. by rewrite <- Hr, rw_eta.
Qed.
(** The abstract specification of a cached call of no arguments: the
    outcome of each call is the body's own until one returns, and that
    one's for every call after it. *)
Fixpoint memo_spec {A} (calls : list (Render A)) : list (Render A) :=
  match calls with
  | [] => []
  | m :: ms => if rw_ok m then replicate (S (length ms)) m else m :: memo_spec ms
  end.

(** The cache after successive runs of line 27, the file being in state
    [f_i] at run [i]. *)
Definition cache_after (c : cache DataFrame) (fs : list csv_file) : cache DataFrame :=
  foldl (fun c f => (df_original c f).1) c fs.

(** What the cache should hold after a history of file states: the
    outcome of the first run at which the file could be opened (the
    fallback frame with its notice when it was missing, the frame read
    otherwise); nothing while every read has failed. *)
Fixpoint stored_spec (fs : list csv_file) : cache DataFrame :=
  match fs with
  | [] => None
  | Missing :: _ => Some ([ErrorBox not_found_msg], Frame.empty_DataFrame)
  | Unreadable :: fs => stored_spec fs
  | Csv df :: _ => Some ([], df)
  end.

Lemma cache_after_hit out v fs : cache_after (Some (out, v)) fs = Some (out, v).
Proof. unfold cache_after. induction fs as [|f fs IH]; simpl; [done|]. apply IH. Qed.

(** A miss whose body raises leaves the cache empty. *)
Lemma df_original_miss_err f e :
  rw_res (load_data f) = inl e -> df_original None f = (None, load_data f).
Proof. unfold df_original, cache_data. by intros ->. Qed.

End Session.

Section LoaderProperties.
Import Loader Session.

(** C6. [load_data] on each state of the file: a missing file draws the
    one error message and yields [pd.DataFrame()]; any other read failure
    is not caught and escapes; a readable file is returned as read, with
    nothing drawn. *)
Theorem load_data_outcomes df :
  load_data Missing = mkRW [ErrorBox not_found_msg] (inr Frame.empty_DataFrame) /\
  load_data Unreadable = mkRW [] (inl (ReadError csv_path)) /\
  load_data (Csv df) = mkRW [] (inr df).
Proof. done. Qed.

(** C7. Within one server process, once [load_data] has returned, every
    later run gets back exactly the same outcome (the same frame and the
    same drawn elements), whatever state the file is in by then. *)
Theorem first_load_sticks f fs :
  rw_ok (load_data f) = true ->
  runs None (f :: fs) = replicate (S (length fs)) (load_data f).
Proof.
  unfold rw_ok. destruct (rw_res (load_data f)) as [|v] eqn:Hr; [done|]. intros _.
  cbn [runs]. rewrite (df_original_miss_ok f v Hr). cbn [fst snd]. rewrite runs_hit.
  by rewrite <- Hr, rw_eta.
Qed.

Lemma first_load_sticks_witness :
  rw_ok (load_data Missing) = true /\
  runs None [Missing; Csv Frame.empty_DataFrame] = replicate 2 (load_data Missing).
Proof.
  split; [reflexivity|].
  apply (first_load_sticks Missing [Csv Frame.empty_DataFrame]). reflexivity.
Defined.


(** C8. A read failure other than a missing file is not cached: that run
    raises, and the next run reads the file again. *)
Theorem read_error_not_cached fs :
  runs None (Unreadable :: fs) = mkRW [] (inl (ReadError csv_path)) :: runs None fs.
Proof. done. Qed.

(** C9. When the file is missing at the first run, every run of the
    process draws exactly one error message from line 27 and works on
    the empty frame. *)
Theorem missing_file_one_notice fs :
  Forall (fun r => filter (fun e => is_error e = true) (rw_out r) = [ErrorBox not_found_msg] /\
                   rw_res r = inr Frame.empty_DataFrame)
    (runs None (Missing :: fs)).
Proof.
  rewrite first_load_sticks by done. apply Forall_replicate. by split.
Qed.

(** C10. The cache invariant, by rule induction on the runs: the cache
    of line 16 holds exactly nothing, the empty frame with the error
    notice, or a frame read from the file with nothing drawn; and after
    a history of file states it holds the outcome of the first run at
    which the file could be opened, nothing if there was none. *)
Theorem reachable_cache c :
  (reachable c <->
   c = None \/ c = Some ([ErrorBox not_found_msg], Frame.empty_DataFrame) \/
   exists df, c = Some ([], df)) /\
  (forall fs, cache_after None fs = stored_spec fs).
Proof.
  split; [split|].
  - induction 1 as [|c f _ IH]; [by left|].
    destruct IH as [->|[->|[df ->]]]; [|by right; left|by right; right; eauto].
    destruct f as [| |df]; simpl; [by right; left|by left|by right; right; eauto].
  - intros [->|[->|[df ->]]]; [constructor|..].
    + apply (reach_run None Missing), reach_start.
    + apply (reach_run None (Csv df)), reach_start.
  - induction fs as [|[| |df] fs IH]; [done| |done|]; apply cache_after_hit.
Qed.

(** C21. Refinement: the runs of line 27 in one process, threading the
    cache, are the runs of the stateless specification [memo_spec] of a
    memoised call (from an empty cache), or the replay of the stored
    outcome (from a filled one). *)
Theorem runs_refine_memo c fs :
  runs c fs =
  match c with
  | None => memo_spec (load_data <$> fs)
  | Some (out, v) => replicate (length fs) (mkRW out (inr v))
  end.
Proof.
  destruct c as [[out v]|]; [apply runs_hit|].
  induction fs as [|f fs IH]; [done|]. cbn [runs fmap list_fmap memo_spec].
  unfold rw_ok. destruct (rw_res (load_data f)) as [e|v] eqn:Hr.
  - rewrite (df_original_miss_err f e Hr). simpl. by rewrite IH.
  - rewrite (df_original_miss_ok f v Hr). cbn [fst snd]. rewrite runs_hit, length_fmap.
    by rewrite <- Hr, rw_eta.
Qed.

(** C22. Liveness of loading: from the first run at which the file can be
    loaded (read or found missing) on, no run of line 27 fails again,
    whatever happens to the file afterwards. *)
Theorem eventually_never_fails fs1 f fs2 :
  rw_ok (load_data f) = true ->
  Forall (fun r => rw_ok r = true) (drop (length fs1) (runs None (fs1 ++ f :: fs2))).
Proof.
  intros Hok. induction fs1 as [|f1 fs1 IH]; cbn [app runs length drop].
  - unfold rw_ok in Hok. destruct (rw_res (load_data f)) as [|v] eqn:Hr; [done|].
    rewrite (df_original_miss_ok f v Hr). cbn [fst snd]. rewrite runs_hit.
    constructor; [by unfold rw_ok; rewrite Hr|]. by apply Forall_replicate.
  - destruct (rw_res (load_data f1)) as [e|v] eqn:Hr.
    + rewrite (df_original_miss_err f1 e Hr). exact IH.
    + rewrite (df_original_miss_ok f1 v Hr). cbn [fst snd]. rewrite runs_hit.
      apply Forall_drop, Forall_replicate. done.
Qed.

Lemma eventually_never_fails_witness :
  rw_ok (load_data (Csv Frame.empty_DataFrame)) = true /\
  Forall (fun r => rw_ok r = true)
    (drop (length [Unreadable; Unreadable])
       (runs None ([Unreadable; Unreadable] ++ Csv Frame.empty_DataFrame :: [Unreadable; Missing]))).
Proof.
  assert (H : rw_ok (load_data (Csv Frame.empty_DataFrame)) = true) by reflexivity.
  split; [exact H|]. apply (eventually_never_fails _ _ _ H).
Defined.

End LoaderProperties.

Lemma raises_only_df_original (P : exn -> Prop) c f :
  P (ReadError Loader.csv_path) -> raises_only P (Loader.df_original c f).2.
Proof.
  intros HP e. destruct c as [[out v]|]; simpl; [done|].
  destruct f; simpl; [done|by intros [= <-]|done].
Qed.
