(* ===== verification/Pages.v ===== *)
(** * The pages of dashboard.py (lines 29-150)

    The sidebar (a radio button over the four section names), the three
    static pages, the data-analysis page over [df_original] and the
    [if/elif] chain that draws the selected page.  Every [st.*] call is
    one [emit], in source order; the text is the source's. *)

From stdpp Require Import base list sets strings.
From S2P Require Import Prelude Frame Counts Streamlit.

Local Open Scope render_scope.
Local Open Scope string_scope.

Module Pages.

(** [st.radio(..., options)] with the value held under its key:
    Streamlit shows the first option until the user picks one, and a
    stored value that is not an option falls back to it. *)
Definition radio_value (options : list string) (state : option string) : string :=
  match state with
  | Some s => if decide (s ∈ options) then s else default "" (head options)
  | None => default "" (head options)
  end.

Definition nav_options : list string :=
  ["Home"; "Formação e Experiência"; "Skills"; "Análise de Dados"].

(** Lines 30-44: the sidebar; returns [pagina_selecionada]. *)
Definition sidebar (nav : option string) : Render string :=
  within InSidebar (
    emit (Title "Fabrini soares") ;;;
    emit (Write "Estudante de Engenharia de Software") ;;;
    let v := radio_value nav_options nav in
    emit (Radio "Navegue pelas seções:" nav_options "navigation" v) ;;;
    emit (Write "---") ;;;
    emit (Write "Projeto de CP1 - FIAP") ;;;
    emit (Write "© 2023 Fabrini soares") ;;;
    rw_ret v).

(** Lines 47-61. *)
Definition pagina_home : Render unit :=
  emit (Title "Fabrini soares") ;;;
  emit (Markdown "---") ;;;
  emit (Columns 2) ;;;
  within (InColumn 0) (
    emit (Subheader "Informações de Contato") ;;;
    emit (Write "📍 São Paulo, vila matilde") ;;;
    emit (Write "📧 fabriniaraujo23@gmail.com") ;;;
    emit (Write "📞 +55 (11) 945485574")) ;;;
  within (InColumn 1) (
    emit (Subheader "Presença Online") ;;;
    emit (Markdown "🔗 [GitHub](https://github.com/fabriniaraujo23)")) ;;;
  emit (Markdown "---") ;;;
  emit (Subheader "🎯 Objetivo Profissional") ;;;
  emit (Info "Busco ativamente por uma oportunidade de Jovem Aprendiz, Estágio, Trainee ou Junior na área de Tecnologia da Informação (TI). Meu objetivo é aplicar e aprofundar meus conhecimentos em programação e engenharia de software, contribuindo de forma prática para projetos e desafios do mercado.").

(** Lines 63-71. *)
Definition pagina_formacao_experiencia : Render unit :=
  emit (Title "📚 Formação Acadêmica e Cursos") ;;;
  emit (Markdown "---") ;;;
  emit (Subheader "🎓 Formação Acadêmica") ;;;
  emit (Markdown "- **Engenharia de Software** - FIAP (Cursando)") ;;;
  emit (Markdown "- **Ensino Médio** (Concluído em Dez/2023)") ;;;
  emit (Markdown "---") ;;;
  emit (Subheader "📜 Cursos de Aprimoramento") ;;;
  emit (Markdown (lines ["- **Algoritmos: Aprenda a programar** - FIAP (2024)";
                         "- **Formação Full stack JavaScript** - ALURA (2024)";
                         "- **Introdução a Game Design** - Colégio Internacional Radial (2023)"])).

(** Lines 73-96. *)
Definition pagina_skills : Render unit :=
  emit (Title "💡 Habilidades e Competências") ;;;
  emit (Markdown "---") ;;;
  emit (Subheader "🛠️ Tech Skills") ;;;
  emit (Columns 3) ;;;
  within (InColumn 0) (
    emit (Success "**Linguagens de Programação**") ;;;
    emit (Markdown (lines ["- Python"; "- Java"; "- JavaScript"; "- C"; "- HTML & CSS"]))) ;;;
  within (InColumn 1) (
    emit (Success "**Frameworks, BDs e Ferramentas**") ;;;
    emit (Markdown (lines ["- React.js, Node.js"; "- SQL (Oracle, SQLite)"; "- Git & GitHub";
                           "- VSCode, IntelliJ"; "- Figma"]))) ;;;
  within (InColumn 2) (
    emit (Success "**Conceitos e Outros**") ;;;
    emit (Markdown (lines ["- Programação Orientada a Objetos"; "- Design Thinking";
                           "- Pacote Office"; "- Power BI & Power Query"]))) ;;;
  emit (Markdown "---") ;;;
  emit (Subheader "🌐 Línguas") ;;;
  emit (Markdown (lines ["- **Português**: Nativo"; "- **Inglês**: Avançado/C1";
                         "- **Espanhol**: Básico"])) ;;;
  emit (Markdown "---") ;;;
  emit (Subheader "🤝 Soft Skills") ;;;
  emit (Columns 2) ;;;
  within (InColumn 0) (
    emit (Markdown (lines ["✓ Responsabilidade"; "✓ Inteligência"; "✓ Proatividade";
                           "✓ Disciplina"]))) ;;;
  within (InColumn 1) (
    emit (Markdown (lines ["✓ Empenho"; "✓ Respeito"; "✓ Criatividade"]))).

Section Analysis.
Context {CS : CountSort}.

(** [df[c]]: pandas raises [KeyError] for a missing column. *)
Definition column (c : string) (df : DataFrame) : Render (list cell) :=
  match Frame.get_column c df with
  | Some col => rw_ret col
  | None => rw_raise (KeyError c)
  end.

(** [df.columns = cols] (line 133). *)
Definition assign_columns (cols : list string) (df : DataFrame) : Render DataFrame :=
  match Frame.set_columns cols df with
  | Some df' => rw_ret df'
  | None => rw_raise (ValueError "Length mismatch")
  end.

(** Lines 114-120. *)
Definition secao_ano (df : DataFrame) : Render unit :=
  emit (Write "---") ;;;
  emit (Subheader "3. Evolução de Veículos por Ano de Modelo") ;;;
  if Frame.has_column "Model Year" df then
    years <- column "Model Year" df ;;
    let veiculos_ano := Frame.reset_index "Model Year" "Quantidade" (groupby_size years) in
    fig_line <- Px.line veiculos_ano "Model Year" "Quantidade" true
                  "Evolução de Veículos Elétricos por Ano de Modelo" ;;
    emit (PlotlyChart fig_line)
  else rw_ret tt.

(** Lines 122-127. *)
Definition secao_tipos (df : DataFrame) : Render unit :=
  emit (Write "---") ;;;
  emit (Subheader "4. Tipos de Veículos Elétricos") ;;;
  if Frame.has_column "Electric Vehicle Type" df then
    ev <- column "Electric Vehicle Type" df ;;
    let tipos := value_counts ev in
    fig_pie <- Px.pie tipos.*2 tipos.*1 "Distribuição dos Tipos de Veículos Elétricos" ;;
    emit (PlotlyChart fig_pie)
  else rw_ret tt.

(** Lines 129-140; [value_counts()] names its Series ["count"], which
    [reset_index()] turns into the second column (pandas 2). *)
Definition secao_estados (df : DataFrame) : Render unit :=
  emit (Write "---") ;;;
  emit (Subheader "5. Distribuição Geográfica por Estado") ;;;
  if Frame.has_column "State" df then
    st <- column "State" df ;;
    let estados := Frame.reset_index "State" "count" (value_counts st) in
    estados <- assign_columns ["Estado"; "Quantidade"] estados ;;
    fig_map <- Px.choropleth estados "Estado" "USA-states" "Quantidade" "usa"
                 "Distribuição de Veículos Elétricos por Estado" ;;
    emit (PlotlyChart fig_map)
  else rw_ret tt.

(** Lines 98-140. *)
Definition pagina_analise_dados (df : DataFrame) : Render unit :=
  emit (Title "📊 Análise de Dados: Veículos Elétricos") ;;;
  emit (Markdown "---") ;;;
  if Frame.empty df then rw_ret tt else
  emit (Subheader "1. Estrutura dos Dados") ;;;
  emit (DataFrameView (Frame.head 5 df)) ;;;
  emit (WriteShape "Dimensões:" (Frame.shape df)) ;;;
  emit (Write "---") ;;;
  emit (Subheader "2. Distribuição por Fabricante (Top 10)") ;;;
  make <- column "Make" df ;;
  let top_fabricantes := top_n 10 make in
  emit (BarChart top_fabricantes) ;;;
  secao_ano df ;;;
  secao_tipos df ;;;
  secao_estados df.

(** Lines 143-150: the page for the selected section. *)
Definition dispatch (df : DataFrame) (pagina_selecionada : string) : Render unit :=
  if String.eqb pagina_selecionada "Home" then pagina_home
  else if String.eqb pagina_selecionada "Formação e Experiência" then pagina_formacao_experiencia
  else if String.eqb pagina_selecionada "Skills" then pagina_skills
  else if String.eqb pagina_selecionada "Análise de Dados" then pagina_analise_dados df
  else rw_ret tt.
End Analysis.

(** * What the analysis page draws *)

Section AnalysisFacts.
Context {CS : CountSort}.

(** The view a column gives when present, nothing when absent. *)
Definition view_of (c : string) (df : DataFrame) (mk : list cell -> elem) : list elem :=
  match Frame.get_column c df with Some col => [mk col] | None => [] end.

(** The shape of sections 3-5: a chart drawn under a column guard. *)
Definition guarded_view (c : string) (mk : list cell -> elem) (df : DataFrame)
    : Render unit :=
  if Frame.has_column c df then col <- column c df ;; emit (mk col) else rw_ret tt.

Definition chart_fabricantes (col : list cell) : elem := BarChart (top_n 10 col).
Definition chart_ano (col : list cell) : elem :=
  PlotlyChart (FigLine (groupby_size col).*1 (Frame.count_cell <$> (groupby_size col).*2) true
    "Evolução de Veículos Elétricos por Ano de Modelo").
Definition chart_tipos (col : list cell) : elem :=
  PlotlyChart (FigPie (value_counts col).*2 (value_counts col).*1
    "Distribuição dos Tipos de Veículos Elétricos").
Definition chart_estados (col : list cell) : elem :=
  PlotlyChart (FigChoropleth (value_counts col).*1 (Frame.count_cell <$> (value_counts col).*2)
    "USA-states" "usa" "Distribuição de Veículos Elétricos por Estado").

Lemma column_spec c df :
  column c df =
  match Frame.get_column c df with
  | Some col => mkRW [] (inr col)
  | None => mkRW [] (inl (KeyError c))
  end.
Proof. unfold column. by destruct (Frame.get_column c df). Qed.

Lemma guarded_view_spec c mk df :
  (forall col, is_chart (mk col) = true) ->
  rw_res (guarded_view c mk df) = inr tt /\
  filter (fun e => is_chart e = true) (rw_out (guarded_view c mk df)) = view_of c df mk.
Proof.
  intros Hmk. unfold guarded_view, view_of. destruct (Frame.has_column c df) eqn:Hc.
  - apply Frame.get_column_Some in Hc as [col Hcol].
    rewrite column_spec, Hcol. simpl. by rewrite filter_cons_True.
  - destruct (Frame.get_column c df) eqn:Hcol; [|done].
    exfalso. assert (is_Some (Frame.get_column c df)) as ?%Frame.get_column_Some
      by eauto. congruence.
Qed.

Lemma assign_columns_reset_index a b i v s :
  assign_columns [a; b] (Frame.reset_index i v s) = rw_ret (Frame.reset_index a b s).
Proof. done. Qed.

(** A section (two headings, then a body under a column guard) equals its
    [guarded_view] once the body is known to draw [mk col]. *)
Lemma section_eq w h c (body : list cell -> Render unit) mk df :
  (forall col, body col = emit (mk col)) ->
  (emit w ;;; emit h ;;; if Frame.has_column c df then col <- column c df ;; body col
                          else rw_ret tt) =
  (emit w ;;; emit h ;;; guarded_view c mk df).
Proof.
  intros Hb. unfold guarded_view. do 2 (apply rw_bind_ext; intros []).
  destruct (Frame.has_column c df); [|done]. by apply rw_bind_ext.
Qed.

(** Evaluate the Plotly Express calls of a section body. *)
Ltac rewrite_px :=
  cbv zeta;
  rewrite ?assign_columns_reset_index, ?rw_bind_ret_l,
    ?line_reset_index, ?choropleth_reset_index, ?pie_series, ?rw_bind_ret_l
    by discriminate.

Lemma secao_ano_eq df :
  secao_ano df =
  (emit (Write "---") ;;;
  emit (Subheader "3. Evolução de Veículos por Ano de Modelo") ;;;
  guarded_view "Model Year" chart_ano df).
Proof. apply section_eq; intros col. by rewrite_px. Qed.

Lemma secao_tipos_eq df :
  secao_tipos df =
  (emit (Write "---") ;;;
  emit (Subheader "4. Tipos de Veículos Elétricos") ;;;
  guarded_view "Electric Vehicle Type" chart_tipos df).
Proof. apply section_eq; intros col. by rewrite_px. Qed.

Lemma secao_estados_eq df :
  secao_estados df =
  (emit (Write "---") ;;;
  emit (Subheader "5. Distribuição Geográfica por Estado") ;;;
  guarded_view "State" chart_estados df).
Proof. apply section_eq; intros col. by rewrite_px. Qed.

Lemma guarded_view_ok c mk df : rw_res (guarded_view c mk df) = inr tt.
Proof.
  unfold guarded_view. destruct (Frame.has_column c df) eqn:Hc; [|done].
  apply Frame.get_column_Some in Hc as [col Hcol]. by rewrite column_spec, Hcol.
Qed.

Section Raises.
Context (P : exn -> Prop).

Lemma raises_only_column c df : P (KeyError c) -> raises_only P (column c df).
Proof.
  intros HP e. rewrite column_spec. destruct (Frame.get_column c df); simpl; [done|].
  by intros [= <-].
Qed.

Lemma raises_only_guarded c mk df : raises_only P (guarded_view c mk df).
Proof. intros e. by rewrite guarded_view_ok. Qed.

#[local] Hint Resolve raises_only_column raises_only_guarded : dash.

Lemma raises_only_static :
  raises_only P pagina_home /\ raises_only P pagina_formacao_experiencia /\
  raises_only P pagina_skills.
Proof.
  unfold pagina_home, pagina_formacao_experiencia, pagina_skills.
  split; [|split]; raises_only_solve.
Qed.

Lemma raises_only_sidebar nav : raises_only P (sidebar nav).
Proof. unfold sidebar. apply raises_only_within. raises_only_solve. Qed.

(** The analysis page can only raise the [KeyError] of [df['Make']]:
    the other columns are read under their guard. *)
Lemma raises_only_analise df :
  P (KeyError "Make") -> raises_only P (pagina_analise_dados df).
Proof.
  intros HP. unfold pagina_analise_dados.
  rewrite secao_ano_eq, secao_tipos_eq, secao_estados_eq.
  destruct (Frame.empty df); raises_only_solve.
Qed.

Lemma raises_only_dispatch df sel :
  P (KeyError "Make") -> raises_only P (dispatch df sel).
Proof.
  intros HP. destruct raises_only_static as (? & ? & ?). unfold dispatch.
  repeat case_match; auto using raises_only_analise with dash.
Qed.
End Raises.

Lemma get_column_None c df :
  Frame.has_column c df = false -> Frame.get_column c df = None.
Proof.
  intros Hc. destruct (Frame.get_column c df) eqn:E; [|done].
  assert (is_Some (Frame.get_column c df)) as ?%Frame.get_column_Some by eauto.
  congruence.
Qed.

Definition analise_header : list elem :=
  [Title "📊 Análise de Dados: Veículos Elétricos"; Markdown "---"].

(** C11. On an empty frame (no rows or no columns) the analysis page
    draws its title and rule and stops. *)
Theorem analise_empty_frame df :
  Frame.empty df = true -> pagina_analise_dados df = mkRW analise_header (inr tt).
Proof. intros H. unfold pagina_analise_dados. by rewrite H. Qed.

(** C12. On a non-empty frame without a [Make] column, [df['Make']]
    raises [KeyError] and the page ends there: no chart is drawn, not
    even those whose columns exist. *)
Theorem analise_make_missing df :
  Frame.empty df = false -> Frame.has_column "Make" df = false ->
  rw_res (pagina_analise_dados df) = inl (KeyError "Make") /\
  filter (fun e => is_chart e = true) (rw_out (pagina_analise_dados df)) = [].
Proof.
  intros Hne Hm. unfold pagina_analise_dados.
  by rewrite Hne, column_spec, get_column_None.
Qed.

(** C13. On a non-empty frame with a [Make] column the page completes,
    and the charts it draws are, in order, the top-10 makes and then
    the year, type and state views whose columns exist. *)
Theorem analise_views df :
  Frame.empty df = false -> Frame.has_column "Make" df = true ->
  rw_res (pagina_analise_dados df) = inr tt /\
  filter (fun e => is_chart e = true) (rw_out (pagina_analise_dados df)) =
    (view_of "Make" df chart_fabricantes ++ view_of "Model Year" df chart_ano ++
     view_of "Electric Vehicle Type" df chart_tipos ++ view_of "State" df chart_estados)%list.
Proof.
  intros Hne [make Hmake]%Frame.get_column_Some.
  destruct (guarded_view_spec "Model Year" chart_ano df) as [Ha1 Ha2]; [done|].
  destruct (guarded_view_spec "Electric Vehicle Type" chart_tipos df) as [Ht1 Ht2]; [done|].
  destruct (guarded_view_spec "State" chart_estados df) as [Hs1 Hs2]; [done|].
  unfold pagina_analise_dados. rewrite Hne, column_spec, Hmake.
  rewrite secao_ano_eq, secao_tipos_eq, secao_estados_eq.
  destruct (guarded_view "Model Year" chart_ano df) as [oa ra]; simpl in *; subst ra.
  destruct (guarded_view "Electric Vehicle Type" chart_tipos df) as [ot rt];
    simpl in *; subst rt.
  destruct (guarded_view "State" chart_estados df) as [os rs]; simpl in *; subst rs.
  split; [done|].
  repeat first [rewrite filter_app | rewrite filter_cons_True by done
               | rewrite filter_cons_False by done].
  rewrite ?filter_nil, Ha2, Ht2, Hs2.
  assert (view_of "Make" df chart_fabricantes = [chart_fabricantes make]) as ->
    by (unfold view_of; by rewrite Hmake).
  done.
Qed.

Lemma radio_value_elem_of nav : radio_value nav_options nav ∈ nav_options.
Proof. destruct nav as [s|]; simpl; [case_decide; [done|]|]; set_solver. Qed.

Lemma radio_value_cases nav :
  radio_value nav_options nav = "Home" \/
  radio_value nav_options nav = "Formação e Experiência" \/
  radio_value nav_options nav = "Skills" \/
  radio_value nav_options nav = "Análise de Dados".
Proof.
  pose proof (radio_value_elem_of nav) as H. unfold nav_options in H.
  rewrite !elem_of_cons, elem_of_nil in H. tauto.
Qed.

(** C19. On a frame with rows and columns, the page first shows its
    structure: the first five rows ([df.head()], as many as there are up
    to five, each still as wide as the header) and the frame's shape. *)
Theorem analise_structure df :
  0 < length (df_rows df) -> 0 < length (df_columns df) ->
  take 5 (rw_out (pagina_analise_dados df)) =
    (analise_header ++ [Subheader "1. Estrutura dos Dados"; DataFrameView (Frame.head 5 df);
      WriteShape "Dimensões:" (length (df_rows df), length (df_columns df))])%list /\
  length (df_rows (Frame.head 5 df)) = Nat.min 5 (length (df_rows df)) /\
  (Frame.df_wf df -> Frame.df_wf (Frame.head 5 df)).
Proof.
  intros Hr Hc. assert (Hne : Frame.empty df = false) by (by apply Frame.empty_false_iff).
  split; [|split; [apply length_take|apply Frame.head_wf]].
  unfold pagina_analise_dados. by rewrite Hne.
Qed.


(** C14. The radio always yields one of the four section names, and
    the [if/elif] chain draws, for each name, that section's page. *)
Theorem dispatch_sections df nav :
  radio_value nav_options nav ∈ nav_options /\
  Forall2 (fun o p => dispatch df o = p) nav_options
    [pagina_home; pagina_formacao_experiencia; pagina_skills; pagina_analise_dados df].
Proof.
  split; [apply radio_value_elem_of|by repeat constructor].
Qed.
End AnalysisFacts.

Lemma analise_empty_frame_witness :
  Frame.empty Frame.empty_DataFrame = true /\
  pagina_analise_dados Frame.empty_DataFrame = mkRW analise_header (inr tt).
Proof.
  split; [reflexivity|]. apply analise_empty_frame. reflexivity.
Defined.

(** A frame with a [State] column but no [Make]. *)
Definition frame_without_make : DataFrame :=
  mkDF ["Model"; "State"] [[CStr "MODEL 3"; CStr "CA"]].

Lemma analise_make_missing_witness :
  Frame.empty frame_without_make = false /\
  Frame.has_column "Make" frame_without_make = false /\
  rw_res (pagina_analise_dados frame_without_make) = inl (KeyError "Make") /\
  filter (fun e => is_chart e = true) (rw_out (pagina_analise_dados frame_without_make)) = [].
Proof.
  split; [reflexivity|]. split; [reflexivity|].
  apply analise_make_missing; reflexivity.
Defined.

(** A frame with [Make] and [State] but no year or type column. *)
Definition frame_make_state : DataFrame :=
  mkDF ["Make"; "State"] [[CStr "TESLA"; CStr "CA"]; [CStr "KIA"; CStr "WA"]].

Lemma analise_views_witness :
  Frame.empty frame_make_state = false /\
  Frame.has_column "Make" frame_make_state = true /\
  rw_res (pagina_analise_dados frame_make_state) = inr tt /\
  filter (fun e => is_chart e = true) (rw_out (pagina_analise_dados frame_make_state)) =
    (view_of "Make" frame_make_state chart_fabricantes ++
     view_of "Model Year" frame_make_state chart_ano ++
     view_of "Electric Vehicle Type" frame_make_state chart_tipos ++
     view_of "State" frame_make_state chart_estados)%list.
Proof.
  split; [reflexivity|]. split; [reflexivity|].
  apply analise_views; reflexivity.
Defined.

Lemma analise_structure_witness :
  0 < length (df_rows frame_make_state) /\ 0 < length (df_columns frame_make_state) /\
  take 5 (rw_out (pagina_analise_dados frame_make_state)) =
    (analise_header ++ [Subheader "1. Estrutura dos Dados";
      DataFrameView (Frame.head 5 frame_make_state);
      WriteShape "Dimensões:" (length (df_rows frame_make_state),
                                length (df_columns frame_make_state))])%list /\
  length (df_rows (Frame.head 5 frame_make_state)) =
    Nat.min 5 (length (df_rows frame_make_state)) /\
  (Frame.df_wf frame_make_state -> Frame.df_wf (Frame.head 5 frame_make_state)).
Proof.
  split; [simpl; lia|]. split; [simpl; lia|].
  apply analise_structure; simpl; lia.
Defined.

End Pages.
