(* ===== verification/App.v ===== *)
(** * One run of dashboard.py

    A Streamlit run executes the whole script top to bottom: the page
    configuration (line 9), [df_original = load_data()] through the cache
    (line 27), the sidebar (lines 30-44) and the page chosen in it (lines
    143-150).  [app_run] threads the cache from one run to the next and
    returns what the run drew and how it ended. *)

From stdpp Require Import base list sets strings.
From S2P Require Import Prelude Frame Counts Streamlit Loader Pages.

Local Open Scope render_scope.
Local Open Scope string_scope.

Module App.
Import Loader Pages.

Section Run.
Context {CS : CountSort}.

(** Line 9. *)
Definition page_config : elem := PageConfig "CP1 | Fabrini soares " "📊" "wide".

Definition app_run (c : cache DataFrame) (f : csv_file) (nav : option string)
    : cache DataFrame * Render unit :=
  let '(c', loaded) := df_original c f in
  (c', emit page_config ;;;
       df <- loaded ;;
       pagina_selecionada <- sidebar nav ;;
       dispatch df pagina_selecionada).

Lemma app_run_unfold c f nav :
  app_run c f nav =
  ((df_original c f).1,
   emit page_config ;;; df <- (df_original c f).2 ;;
   pagina_selecionada <- sidebar nav ;; dispatch df pagina_selecionada).
Proof. unfold app_run. by destruct (df_original c f). Qed.

(** C15. Every run starts by configuring the page, and the only
    exceptions a run can end with are a read failure of the CSV file
    other than its absence, and the [KeyError] of [df['Make']]. *)
Theorem app_run_exceptions c f nav :
  head (rw_out (app_run c f nav).2) = Some page_config /\
  raises_only (fun e => e = ReadError csv_path \/ e = KeyError "Make") (app_run c f nav).2.
Proof.
  rewrite app_run_unfold. split.
  - unfold rw_bind at 1. done.
  - raises_only_solve; auto using raises_only_df_original, raises_only_sidebar,
      raises_only_dispatch.
Qed.

(** C16. A run in which line 27 yields the missing-file fallback
    completes whatever section is selected, shows exactly one error
    message and draws no chart. *)
Theorem unavailable_run c f nav :
  (df_original c f).2 = mkRW [ErrorBox not_found_msg] (inr Frame.empty_DataFrame) ->
  rw_res (app_run c f nav).2 = inr tt /\
  filter (fun e => is_error e = true) (rw_out (app_run c f nav).2) = [ErrorBox not_found_msg] /\
  filter (fun e => is_chart e = true) (rw_out (app_run c f nav).2) = [].
Proof.
  intros Hl. rewrite app_run_unfold, Hl. unfold sidebar. cbn zeta.
  destruct (radio_value_cases nav) as [H|[H|[H|H]]]; rewrite H;
    vm_compute; repeat split.
Qed.

(** C18. Idempotence of a run: once line 27 has returned in a process,
    running the script again with the same section selected draws the same
    page and ends the same way, whatever the file has become. *)
Theorem app_run_idempotent c f f' nav :
  rw_ok (df_original c f).2 = true ->
  app_run (app_run c f nav).1 f' nav = app_run c f nav.
Proof.
  intros Hok. rewrite !app_run_unfold. cbn [fst].
  by rewrite (Session.df_original_replay c f f' Hok).
Qed.
(** C24. The [KeyError] of a frame without [Make] outlives the file: a
    run that loads such a frame and shows the analysis page fails, and so
    does the next run of the process, whatever the file has become (the
    cached frame is kept). *)
Theorem make_missing_persists df f' :
  Frame.empty df = false -> Frame.has_column "Make" df = false ->
  rw_res (app_run None (Csv df) (Some "Análise de Dados")).2 = inl (KeyError "Make") /\
  rw_res (app_run (app_run None (Csv df) (Some "Análise de Dados")).1 f'
            (Some "Análise de Dados")).2 = inl (KeyError "Make").
Proof.
  intros Hne Hm.
  assert (Hp : rw_res (pagina_analise_dados df) = inl (KeyError "Make")).
  { unfold pagina_analise_dados. by rewrite Hne, column_spec, get_column_None. }
  rewrite !app_run_unfold. cbn -[pagina_analise_dados].
  rewrite decide_True by (unfold nav_options; set_solver).
  cbn -[pagina_analise_dados]. by rewrite Hp.
Qed.
End Run.

Lemma unavailable_run_witness :
    (df_original None Missing).2 = mkRW [ErrorBox not_found_msg] (inr Frame.empty_DataFrame) /\
    rw_res (app_run None Missing None).2 = inr tt /\
    filter (fun e => is_error e = true) (rw_out (app_run None Missing None).2) =
      [ErrorBox not_found_msg] /\
    filter (fun e => is_chart e = true) (rw_out (app_run None Missing None).2) = [].
  Proof.
    split; [reflexivity|]. apply unavailable_run. reflexivity.
  Defined.

(** The five rows of the spec's example, used by the witnesses below. *)
Definition spec_sample : DataFrame :=
  mkDF ["Make"; "Model Year"; "Electric Vehicle Type"; "State"]
    [[CStr "TESLA"; CInt 2022; CStr "BEV"; CStr "CA"];
     [CStr "NISSAN"; CInt 2021; CStr "BEV"; CStr "WA"];
     [CStr "TESLA"; CInt 2023; CStr "PHEV"; CStr "CA"];
     [CStr "FORD"; CInt 2022; CStr "PHEV"; CStr "TX"];
     [CStr "TESLA"; CInt 2022; CStr "BEV"; CStr "CA"]].

Lemma app_run_idempotent_witness :
  rw_ok (df_original None (Csv spec_sample)).2 = true /\
  app_run (app_run None (Csv spec_sample) (Some "Skills")).1 Missing (Some "Skills") =
  app_run None (Csv spec_sample) (Some "Skills").
Proof.
  split; [reflexivity|]. apply app_run_idempotent. reflexivity.
Defined.

Lemma make_missing_persists_witness :
  Frame.empty frame_without_make = false /\
  Frame.has_column "Make" frame_without_make = false /\
  rw_res (app_run None (Csv frame_without_make) (Some "Análise de Dados")).2
    = inl (KeyError "Make") /\
  rw_res (app_run (app_run None (Csv frame_without_make) (Some "Análise de Dados")).1
            (Csv spec_sample) (Some "Análise de Dados")).2 = inl (KeyError "Make").
Proof.
  split; [reflexivity|]. split; [reflexivity|].
  apply make_missing_persists; reflexivity.
Defined.

End App.
